(** * The whisper JNI bridge (app/src/main/jni/whisper/jni.c)

    A shallow embedding of the eight JNI entry points that connect
    [WhisperCppLib.kt] to the whisper.cpp engine, and the properties of the
    inference-session gateway that follow from them.

    The bridge is glue: it owns no algorithm.  Everything it does is a
    sequence of calls into three neighbours, so the model has three parts:

    - the engine (whisper.h), an interface whose implementation lives outside
      the bridge: a record of operations over an abstract library state;
    - the Java VM (jni.h), as far as the bridge touches it: immutable strings,
      mutable float arrays held in a store, and the native buffers handed out
      by the [Get...] functions;
    - logcat (android/log.h): the lines written, kept unformatted.

    Every entry point is a computation in a small state monad over these. *)

From stdpp Require Import base gmap strings list.
From Stdlib Require Import ZArith Lia.

Local Open Scope Z_scope.

(** ** C and JNI scalars *)

(** [jint] and [jsize] are 32-bit, [jlong] is 64-bit, [jboolean] is an
    unsigned byte.  The bridge does no arithmetic on any of them; it passes
    them on to parameters of the same width ([int], [int64_t]), so a value is
    modelled by the integer it denotes. *)
Definition jint := Z.
Definition jsize := Z.
Definition jlong := Z.
Definition jboolean := Z.

(** A [jfloat] is never inspected by the bridge: it is carried as its
    IEEE-754 binary32 bit pattern. *)
Definition jfloat := Z.

Definition JNI_FALSE : jboolean := 0.
Definition JNI_TRUE : jboolean := 1.

(** Release modes of [Release<Type>ArrayElements]. *)
Definition JNI_COMMIT : jint := 1.
Definition JNI_ABORT : jint := 2.

(** A pointer to a [struct whisper_context] is modelled by the integer it
    casts to; the cast to [jlong] in [initContext] and the cast back in the
    other entry points reinterpret the same 64 bits. *)
Definition whisper_context_ptr := Z.
Definition NULL : whisper_context_ptr := 0.

Definition jlong_of_context (context : whisper_context_ptr) : jlong := context.
Definition context_of_jlong (context_ptr : jlong) : whisper_context_ptr := context_ptr.

(** A pointer to [const char] is [None] when it is null and otherwise the
    bytes before the terminator. A [jstring] is immutable, so it is modelled
    by value: [None] for the null reference, otherwise its modified UTF-8
    content (which is what [GetStringUTFChars] hands out). *)
Definition cstring := option string.
Definition jstring := option string.

(** A [jfloatArray] is mutable and shared with the caller: a reference into
    the VM's array store. *)
Definition jfloatArray := Z.

(** ** libc: strcmp *)

(** Bytes compare as [unsigned char]; the C standard fixes only the sign of
    the result, rendered here as -1, 0 or 1.  The end of a string is its
    terminator, which is below every byte of a string's content. *)
Fixpoint strcmp (s1 s2 : string) : Z :=
  match s1, s2 with
  | EmptyString, EmptyString => 0
  | EmptyString, String _ _ => -1
  | String _ _, EmptyString => 1
  | String c1 r1, String c2 r2 =>
      if Ascii.eqb c1 c2 then strcmp r1 r2
      else if (Ascii.N_of_ascii c1 <? Ascii.N_of_ascii c2)%N then -1 else 1
  end.

(** ** android/log.h *)

Inductive android_LogPriority := ANDROID_LOG_INFO | ANDROID_LOG_WARN.

(** A variadic argument of [__android_log_print]. *)
Inductive log_arg :=
| ArgString (s : cstring)
| ArgInt (n : Z).

Definition TAG : string := "WhisperJNI".

(** ** whisper.h *)

Inductive whisper_sampling_strategy :=
| WHISPER_SAMPLING_GREEDY
| WHISPER_SAMPLING_BEAM_SEARCH.

(** [struct whisper_full_params]: the fields the bridge names, and [other]
    for the rest of the struct, which the bridge never touches.  The module
    gives the fields a qualified name for the places where a C parameter of
    the same name ([translate]) is in scope. *)
Module Params.
Record whisper_full_params (O : Type) := mk_full_params {
  strategy : whisper_sampling_strategy;
  n_threads : Z;
  offset_ms : Z;
  translate : bool;
  no_context : bool;
  no_timestamps : bool;
  single_segment : bool;
  print_special : bool;
  print_progress : bool;
  print_realtime : bool;
  print_timestamps : bool;
  language : cstring;
  other : O
}.
Arguments mk_full_params {O}.
Arguments strategy {O}.
Arguments n_threads {O}.
Arguments offset_ms {O}.
Arguments translate {O}.
Arguments no_context {O}.
Arguments no_timestamps {O}.
Arguments single_segment {O}.
Arguments print_special {O}.
Arguments print_progress {O}.
Arguments print_realtime {O}.
Arguments print_timestamps {O}.
Arguments language {O}.
Arguments other {O}.
End Params.
Export Params.

(** The part of whisper.h the bridge calls.  [lib] is the state of the whole
    library (every live context with its results and timings, and whatever
    globals it keeps).  A function that can change that state returns the new
    one; the accessors only read. Sample buffers and strings are passed by
    content, as all of them are [const] in whisper.h. *)
Record whisper_h := {
  lib : Type;
  whisper_context_params : Type;
  other_full_params : Type;
  whisper_context_default_params : whisper_context_params;
  whisper_init_from_file_with_params :
    cstring -> whisper_context_params -> lib -> whisper_context_ptr * lib;
  whisper_free : whisper_context_ptr -> lib -> lib;
  whisper_full_default_params :
    whisper_sampling_strategy -> whisper_full_params other_full_params;
  whisper_reset_timings : whisper_context_ptr -> lib -> lib;
  whisper_print_timings : whisper_context_ptr -> lib -> lib;
  whisper_full :
    whisper_context_ptr -> whisper_full_params other_full_params ->
    option (list jfloat) -> Z -> lib -> Z * lib;
  whisper_full_n_segments : whisper_context_ptr -> lib -> Z;
  whisper_full_get_segment_text : whisper_context_ptr -> Z -> lib -> cstring;
  whisper_full_get_segment_t0 : whisper_context_ptr -> Z -> lib -> Z;
  whisper_full_get_segment_t1 : whisper_context_ptr -> Z -> lib -> Z;
  whisper_print_system_info : lib -> cstring
}.

(** ** The Java VM, as seen through jni.h *)

(** [float_arrays] is the managed heap's [float[]] objects. [utf_live] and
    [elems_live] count the native buffers handed out by [GetStringUTFChars]
    and [GetFloatArrayElements] that have not been released yet.
    [write_backs] counts the times a release has copied a native buffer back
    into its array. *)
Record jvm := mk_jvm {
  float_arrays : gmap Z (list jfloat);
  utf_live : nat;
  elems_live : nat;
  write_backs : nat
}.

Definition jvm_GetStringUTFChars (s : jstring) (v : jvm) : cstring * jvm :=
  match s with
  | None => (None, v)
  | Some chars =>
      (Some chars,
       mk_jvm (float_arrays v) (S (utf_live v)) (elems_live v) (write_backs v))
  end.

Definition jvm_ReleaseStringUTFChars (s : jstring) (chars : cstring) (v : jvm) : jvm :=
  match chars with
  | None => v
  | Some _ =>
      mk_jvm (float_arrays v) (Nat.pred (utf_live v)) (elems_live v) (write_backs v)
  end.

(** The VM hands out a native buffer with the elements: a copy or, when it
    pins the array, the elements themselves.  The bridge and the engine only
    read the buffer ([whisper_full] takes it as [const float]), so the buffer
    is modelled by the elements it holds. *)
Definition jvm_GetFloatArrayElements (a : jfloatArray) (v : jvm)
  : option (list jfloat) * jvm :=
  match float_arrays v !! a with
  | None => (None, v)
  | Some elems =>
      (Some elems,
       mk_jvm (float_arrays v) (utf_live v) (S (elems_live v)) (write_backs v))
  end.

Definition jvm_GetArrayLength (a : jfloatArray) (v : jvm) : jsize :=
  match float_arrays v !! a with
  | None => 0
  | Some elems => Z.of_nat (length elems)
  end.

(** Mode 0 copies the buffer back and frees it, [JNI_COMMIT] copies back and
    keeps the buffer, [JNI_ABORT] frees the buffer without copying back.  A
    copy back overwrites the array with the buffer and is counted. *)
Definition jvm_ReleaseFloatArrayElements
    (a : jfloatArray) (elems : option (list jfloat)) (mode : jint) (v : jvm) : jvm :=
  match elems with
  | None => v
  | Some buf =>
      let copy_back :=
        if decide (mode = JNI_ABORT) then false
        else bool_decide (is_Some (float_arrays v !! a)) in
      let arrays :=
        if copy_back then <[a := buf]> (float_arrays v) else float_arrays v in
      let live :=
        if decide (mode = JNI_COMMIT) then elems_live v
        else Nat.pred (elems_live v) in
      mk_jvm arrays (utf_live v) live
        (if copy_back then S (write_backs v) else write_backs v)
  end.

(** [NewStringUTF] builds a fresh immutable string from a C string and
    returns null for a null argument. *)
Definition jvm_NewStringUTF (bytes : cstring) : jstring := bytes.

(** ** The bridge *)

Section Bridge.

Variable E : whisper_h.

Local Abbreviation full_params := (whisper_full_params (other_full_params E)).

(** What the bridge does to the world outside the VM, in program order: the
    logcat lines it prints and the engine entry points it calls that can
    change the library's state. *)
Inductive event :=
| Log (prio : android_LogPriority) (tag fmt : string) (args : list log_arg)
| Call_init_from_file_with_params
    (path_model : cstring) (params : whisper_context_params E)
| Call_free (ctx : whisper_context_ptr)
| Call_reset_timings (ctx : whisper_context_ptr)
| Call_print_timings (ctx : whisper_context_ptr)
| Call_full (ctx : whisper_context_ptr) (params : full_params)
    (samples : option (list jfloat)) (n_samples : Z).

Record world := mk_world {
  engine : lib E;
  vm : jvm;
  trace : list event
}.

(** *** The monad of native code *)

Definition native (A : Type) : Type := world -> A * world.

Definition ret {A} (a : A) : native A := fun w => (a, w).

Definition bind {A B} (m : native A) (k : A -> native B) : native B :=
  fun w => let (a, w1) := m w in k a w1.

Notation "x <- m ;; k" := (bind m (fun x => k))
  (at level 100, m at next level, right associativity).
Notation "m ;;; k" := (bind m (fun _ => k))
  (at level 100, right associativity).

Definition emit (e : event) : native unit :=
  fun w => (tt, mk_world (engine w) (vm w) (trace w ++ [e])).

(** A call that can change the library's state, recorded as [e]. *)
Definition call {A} (e : event) (f : lib E -> A * lib E) : native A :=
  fun w => let (a, l) := f (engine w) in
           (a, mk_world l (vm w) (trace w ++ [e])).

(** A call that only reads the library's state. *)
Definition peek {A} (f : lib E -> A) : native A :=
  fun w => (f (engine w), w).

Definition jni {A} (f : jvm -> A * jvm) : native A :=
  fun w => let (a, v) := f (vm w) in (a, mk_world (engine w) v (trace w)).

Definition LOGI (fmt : string) (args : list log_arg) : native unit :=
  emit (Log ANDROID_LOG_INFO TAG fmt args).
Definition LOGW (fmt : string) (args : list log_arg) : native unit :=
  emit (Log ANDROID_LOG_WARN TAG fmt args).

Definition GetStringUTFChars (s : jstring) : native cstring :=
  jni (jvm_GetStringUTFChars s).
Definition ReleaseStringUTFChars (s : jstring) (chars : cstring) : native unit :=
  jni (fun v => (tt, jvm_ReleaseStringUTFChars s chars v)).
Definition GetFloatArrayElements (a : jfloatArray) : native (option (list jfloat)) :=
  jni (jvm_GetFloatArrayElements a).
Definition GetArrayLength (a : jfloatArray) : native jsize :=
  jni (fun v => (jvm_GetArrayLength a v, v)).
Definition ReleaseFloatArrayElements
    (a : jfloatArray) (elems : option (list jfloat)) (mode : jint) : native unit :=
  jni (fun v => (tt, jvm_ReleaseFloatArrayElements a elems mode v)).
Definition NewStringUTF (bytes : cstring) : native jstring :=
  ret (jvm_NewStringUTF bytes).

(** *** initContext *)

Definition initContext (model_path_str : jstring) : native jlong :=
  model_path_chars <- GetStringUTFChars model_path_str ;;
  LOGI "Loading whisper.cpp model from: %s" [ArgString model_path_chars] ;;;
  context <- call
    (Call_init_from_file_with_params model_path_chars
       (whisper_context_default_params E))
    (whisper_init_from_file_with_params E model_path_chars
       (whisper_context_default_params E)) ;;
  ReleaseStringUTFChars model_path_str model_path_chars ;;;
  (if decide (context = NULL)
   then LOGW "Failed to initialise whisper context" []
   else LOGI "Whisper context created successfully" []) ;;;
  ret (jlong_of_context context).

(** *** freeContext *)

Definition freeContext (context_ptr : jlong) : native unit :=
  let context := context_of_jlong context_ptr in
  if decide (context <> NULL) then
    call (Call_free context) (fun l => (tt, whisper_free E context l)) ;;;
    LOGI "Whisper context freed" []
  else ret tt.

(** *** fullTranscribe *)

(** Lines 79-83: the language handed to the engine. *)
Definition resolve_language (lang_chars : cstring) : cstring :=
  match lang_chars with
  | Some chars => if decide (strcmp chars "auto" <> 0) then Some chars else None
  | None => None
  end.

(** Lines 93-104: the engine's greedy defaults with eleven fields
    overwritten. *)
Definition configure
    (num_threads : jint) (lang_param : cstring) (translate : jboolean)
  : full_params :=
  let params := whisper_full_default_params E WHISPER_SAMPLING_GREEDY in
  {| strategy := strategy params;
     print_realtime := false;
     print_progress := false;
     print_timestamps := false;
     print_special := false;
     no_timestamps := true;
     translate := bool_decide (translate = JNI_TRUE);
     language := lang_param;
     n_threads := num_threads;
     offset_ms := 0;
     no_context := true;
     single_segment := true;
     other := other params |}.

Definition fullTranscribe
    (context_ptr : jlong) (num_threads : jint) (audio_data : jfloatArray)
    (language_str : jstring) (translate : jboolean) : native unit :=
  let context := context_of_jlong context_ptr in
  audio_data_arr <- GetFloatArrayElements audio_data ;;
  audio_data_length <- GetArrayLength audio_data ;;
  lang_chars <- GetStringUTFChars language_str ;;
  let lang_param := resolve_language lang_chars in
  let params := configure num_threads lang_param translate in
  call (Call_reset_timings context)
       (fun l => (tt, whisper_reset_timings E context l)) ;;;
  LOGI "Running whisper_full with %d threads on %d samples, lang=%s, translate=%d"
       [ArgInt num_threads; ArgInt audio_data_length;
        ArgString (Some (default "auto" lang_param));
        ArgInt (Z.b2z (Params.translate params))] ;;;
  status <- call (Call_full context params audio_data_arr audio_data_length)
                 (whisper_full E context params audio_data_arr audio_data_length) ;;
  (if decide (status <> 0)
   then LOGW "whisper_full failed" []
   else call (Call_print_timings context)
             (fun l => (tt, whisper_print_timings E context l))) ;;;
  ReleaseStringUTFChars language_str lang_chars ;;;
  ReleaseFloatArrayElements audio_data audio_data_arr JNI_ABORT.

(** *** The accessors *)

Definition getTextSegmentCount (context_ptr : jlong) : native jint :=
  let context := context_of_jlong context_ptr in
  peek (whisper_full_n_segments E context).

Definition getTextSegment (context_ptr : jlong) (index : jint) : native jstring :=
  let context := context_of_jlong context_ptr in
  text <- peek (whisper_full_get_segment_text E context index) ;;
  NewStringUTF text.

Definition getTextSegmentT0 (context_ptr : jlong) (index : jint) : native jlong :=
  let context := context_of_jlong context_ptr in
  peek (whisper_full_get_segment_t0 E context index).

Definition getTextSegmentT1 (context_ptr : jlong) (index : jint) : native jlong :=
  let context := context_of_jlong context_ptr in
  peek (whisper_full_get_segment_t1 E context index).

(** *** getSystemInfo *)

Definition getSystemInfo : native jstring :=
  sysinfo <- peek (whisper_print_system_info E) ;;
  NewStringUTF sysinfo.

End Bridge.

Arguments Log {E}.
Arguments Call_init_from_file_with_params {E}.
Arguments Call_free {E}.
Arguments Call_reset_timings {E}.
Arguments Call_print_timings {E}.
Arguments Call_full {E}.
Arguments mk_world {E}.
Arguments engine {E}.
Arguments vm {E}.
Arguments trace {E}.

(** ** Observations on a run *)

Section Observations.

Variable E : whisper_h.

Local Abbreviation full_params := (whisper_full_params (other_full_params E)).

(** The decoding configurations handed to [whisper_full], in call order. *)
Definition configurations (t : list (event E)) : list full_params :=
  omap (fun e => match e with Call_full _ params _ _ => Some params | _ => None end) t.

(** The contexts handed to [whisper_free], in call order. *)
Definition freed (t : list (event E)) : list whisper_context_ptr :=
  omap (fun e => match e with Call_free ctx => Some ctx | _ => None end) t.

(** The logcat lines, without the engine calls between them. *)
Definition logcat (t : list (event E))
  : list (android_LogPriority * string * list log_arg) :=
  omap (fun e => match e with
                 | Log prio _ fmt args => Some (prio, fmt, args)
                 | _ => None
                 end) t.

(** The status [whisper_full] returns inside
    [fullTranscribe context_ptr num_threads audio_data language_str translate]
    when it is entered in world [w], and the library state it leaves. *)
Definition engine_run
    (context_ptr : jlong) (num_threads : jint) (audio_data : jfloatArray)
    (language_str : jstring) (translate : jboolean) (w : world E) : Z * lib E :=
  let context := context_of_jlong context_ptr in
  whisper_full E context
    (configure E num_threads (resolve_language language_str) translate)
    (float_arrays (vm w) !! audio_data)
    (jvm_GetArrayLength audio_data (vm w))
    (whisper_reset_timings E context (engine w)).

(** Two library states show the same segments of [ctx] to the accessors. *)
Definition same_segments (ctx : whisper_context_ptr) (l l' : lib E) : Prop :=
  whisper_full_n_segments E ctx l' = whisper_full_n_segments E ctx l /\
  forall i, 0 <= i < whisper_full_n_segments E ctx l ->
    whisper_full_get_segment_text E ctx i l' = whisper_full_get_segment_text E ctx i l /\
    whisper_full_get_segment_t0 E ctx i l' = whisper_full_get_segment_t0 E ctx i l /\
    whisper_full_get_segment_t1 E ctx i l' = whisper_full_get_segment_t1 E ctx i l.

(** The segments of [ctx] are ordered in time. *)
Definition ordered_segments (ctx : whisper_context_ptr) (l : lib E) : Prop :=
  forall i, 0 <= i < whisper_full_n_segments E ctx l ->
    whisper_full_get_segment_t0 E ctx i l <= whisper_full_get_segment_t1 E ctx i l /\
    (i + 1 < whisper_full_n_segments E ctx l ->
     whisper_full_get_segment_t0 E ctx i l <= whisper_full_get_segment_t0 E ctx (i + 1) l).

(** *** What the bridge relies on from the engine *)

(** Modelled from the spec: whisper.h and the engine behind it are not part
    of the bridge.  [whisper_full_default_params] is the constructor of a
    decoding configuration; the spec's "greedy (non-beam) decoding" is the
    strategy the bridge asks it for, so the constructor is taken to return a
    configuration of the strategy it was asked for. *)
Definition defaults_keep_strategy : Prop :=
  forall s, strategy (whisper_full_default_params E s) = s.

(** Modelled from the spec: the timing helpers [whisper_reset_timings] and
    [whisper_print_timings] of the engine are not part of the bridge; they
    work on the timing counters only, the segments of a session being "held
    internally by the session until the next run overwrites them". *)
Definition timings_keep_segments : Prop :=
  forall ctx l,
    same_segments ctx l (whisper_reset_timings E ctx l) /\
    same_segments ctx l (whisper_print_timings E ctx l).

(** Modelled from the spec: [whisper_full] is not part of the bridge.  On
    inference failure the spec reports a "silently-unchanged segment state":
    a run of the engine that returns a non-zero status leaves the segments of
    the session as they were. *)
Definition failed_run_keeps_segments : Prop :=
  forall ctx params samples n_samples l,
    (whisper_full E ctx params samples n_samples l).1 <> 0 ->
    same_segments ctx l (whisper_full E ctx params samples n_samples l).2.

(** Modelled from the spec: [whisper_full] is not part of the bridge.  The
    spec calls the output of a successful run well formed when the segment
    timestamps are "monotonically non-decreasing across increasing index" and
    no segment ends before it starts. *)
Definition successful_run_is_ordered : Prop :=
  forall ctx params samples n_samples l,
    (whisper_full E ctx params samples n_samples l).1 = 0 ->
    ordered_segments ctx (whisper_full E ctx params samples n_samples l).2.

(** Modelled from the spec: [whisper_print_system_info] is not part of the
    bridge.  The spec describes its result as a "static, session-independent
    capability/build description" and as "a non-empty string": one string,
    not null and not empty, whatever the state of the library. *)
Definition system_info_is_static : Prop :=
  exists description, description <> "" /\
    forall l, whisper_print_system_info E l = Some description.

End Observations.

(** ** A small engine

    An instance of the interface to run the bridge on: a library state is the
    table of live contexts with their segments; the only model it loads is
    ["ggml-tiny.bin"]; a run over an empty or missing buffer fails and
    changes nothing, any other run yields one segment that spans the buffer
    (16000 samples per second, timestamps in centiseconds). *)

Definition tiny_segment : Type := string * Z * Z.

Definition tiny_init (path_model : cstring) (_ : unit)
    (l : gmap Z (list tiny_segment)) : whisper_context_ptr * gmap Z (list tiny_segment) :=
  if decide (path_model = Some "ggml-tiny.bin") then
    let ctx := 4096 * (1 + Z.of_nat (size l)) in (ctx, <[ctx := []]> l)
  else (NULL, l).

Definition tiny_full (ctx : whisper_context_ptr) (params : whisper_full_params unit)
    (samples : option (list jfloat)) (n_samples : Z)
    (l : gmap Z (list tiny_segment)) : Z * gmap Z (list tiny_segment) :=
  match samples with
  | Some (_ :: _) =>
      (0, <[ctx := [(if translate params then "hello" else "hola", 0,
                     Z.of_nat (length (default [] samples)) / 160)]]> l)
  | _ => (-1, l)
  end.

Definition tiny_segments (ctx : whisper_context_ptr)
    (l : gmap Z (list tiny_segment)) : list tiny_segment :=
  default [] (l !! ctx).

Definition tiny : whisper_h := {|
  lib := gmap Z (list tiny_segment);
  whisper_context_params := unit;
  other_full_params := unit;
  whisper_context_default_params := tt;
  whisper_init_from_file_with_params := tiny_init;
  whisper_free := fun ctx l => delete ctx l;
  whisper_full_default_params := fun s =>
    mk_full_params s 4 0 false false false false false true false true (Some "en") tt;
  whisper_reset_timings := fun _ l => l;
  whisper_print_timings := fun _ l => l;
  whisper_full := tiny_full;
  whisper_full_n_segments := fun ctx l => Z.of_nat (length (tiny_segments ctx l));
  whisper_full_get_segment_text := fun ctx i l =>
    (fun s => s.1.1) <$> tiny_segments ctx l !! Z.to_nat i;
  whisper_full_get_segment_t0 := fun ctx i l =>
    default 0 ((fun s => s.1.2) <$> tiny_segments ctx l !! Z.to_nat i);
  whisper_full_get_segment_t1 := fun ctx i l =>
    default 0 ((fun s => s.2) <$> tiny_segments ctx l !! Z.to_nat i);
  whisper_print_system_info := fun _ => Some "NEON = 1 | ARM_FMA = 1 | FP16_VA = 1 | "
|}.

(** A VM holding 20 ms of silence in the array referenced by 7 and an empty
    array referenced by 9; no session exists and nothing has been logged. *)
Definition silence : list jfloat := replicate 320 0.

Definition boot : world tiny :=
  mk_world (E := tiny) ∅ (mk_jvm {[ 7 := silence; 9 := [] ]} 0 0 0) [].

(** The world after the model has been loaded. *)
Definition loaded : world tiny := (initContext tiny (Some "ggml-tiny.bin") boot).2.

(** The world after one successful run on the loaded session. *)
Definition transcribed : world tiny :=
  (fullTranscribe tiny 4096 4 7 (Some "auto") JNI_FALSE loaded).2.

(** ** A second engine

    The same sessions as the small engine, with another system description
    and another decoder: a successful run cuts the buffer into one segment
    for every full block of 160 samples, the segment of block [k] running
    from centisecond [k] to centisecond [k + 1]. *)

Definition splitter_segment (k : nat) : tiny_segment :=
  ("seg", Z.of_nat k, Z.of_nat k + 1).

Definition splitter_full (ctx : whisper_context_ptr) (params : whisper_full_params unit)
    (samples : option (list jfloat)) (n_samples : Z)
    (l : gmap Z (list tiny_segment)) : Z * gmap Z (list tiny_segment) :=
  match samples with
  | Some (x :: xs) =>
      (0, <[ctx := splitter_segment <$> seq 0 (length (x :: xs) / 160)%nat]> l)
  | _ => (-1, l)
  end.

Definition splitter : whisper_h := {|
  lib := gmap Z (list tiny_segment);
  whisper_context_params := unit;
  other_full_params := unit;
  whisper_context_default_params := tt;
  whisper_init_from_file_with_params := tiny_init;
  whisper_free := fun ctx l => delete ctx l;
  whisper_full_default_params := fun s =>
    mk_full_params s 4 0 false false false false false true false true (Some "en") tt;
  whisper_reset_timings := fun _ l => l;
  whisper_print_timings := fun _ l => l;
  whisper_full := splitter_full;
  whisper_full_n_segments := fun ctx l => Z.of_nat (length (tiny_segments ctx l));
  whisper_full_get_segment_text := fun ctx i l =>
    (fun s => s.1.1) <$> tiny_segments ctx l !! Z.to_nat i;
  whisper_full_get_segment_t0 := fun ctx i l =>
    default 0 ((fun s => s.1.2) <$> tiny_segments ctx l !! Z.to_nat i);
  whisper_full_get_segment_t1 := fun ctx i l =>
    default 0 ((fun s => s.2) <$> tiny_segments ctx l !! Z.to_nat i);
  whisper_print_system_info := fun _ => Some "AVX = 1 | AVX2 = 1 | F16C = 1 | "
|}.

(** A VM holding 30 ms of silence in the array referenced by 7, and the world
    after the second engine has loaded its model there. *)
Definition split_boot : world splitter :=
  mk_world (E := splitter) ∅ (mk_jvm {[ 7 := replicate 480 0 ]} 0 0 0) [].

Definition split_loaded : world splitter :=
  (initContext splitter (Some "ggml-tiny.bin") split_boot).2.

(** ** Calls from the managed side *)

(** One call of an external function of [WhisperCppLib], with its
    arguments. *)
Inductive invocation :=
| InitContext (model_path_str : jstring)
| FreeContext (context_ptr : jlong)
| FullTranscribe (context_ptr : jlong) (num_threads : jint)
    (audio_data : jfloatArray) (language_str : jstring) (translate : jboolean)
| GetTextSegmentCount (context_ptr : jlong)
| GetTextSegment (context_ptr : jlong) (index : jint)
| GetTextSegmentT0 (context_ptr : jlong) (index : jint)
| GetTextSegmentT1 (context_ptr : jlong) (index : jint)
| GetSystemInfo.

Section Calls.

Variable E : whisper_h.

(** The world a call leaves behind, and the world after a sequence of calls
    made one after the other. *)
Definition invoke (c : invocation) (w : world E) : world E :=
  match c with
  | InitContext model_path_str => (initContext E model_path_str w).2
  | FreeContext context_ptr => (freeContext E context_ptr w).2
  | FullTranscribe context_ptr num_threads audio_data language_str translate =>
      (fullTranscribe E context_ptr num_threads audio_data language_str translate w).2
  | GetTextSegmentCount context_ptr => (getTextSegmentCount E context_ptr w).2
  | GetTextSegment context_ptr index => (getTextSegment E context_ptr index w).2
  | GetTextSegmentT0 context_ptr index => (getTextSegmentT0 E context_ptr index w).2
  | GetTextSegmentT1 context_ptr index => (getTextSegmentT1 E context_ptr index w).2
  | GetSystemInfo => (getSystemInfo E w).2
  end.

Definition invoke_all (cs : list invocation) (w : world E) : world E :=
  foldl (fun w c => invoke c w) w cs.

(** The runs of [whisper_full] in a trace: context, buffer and sample count. *)
Definition runs (t : list (event E))
  : list (whisper_context_ptr * option (list jfloat) * Z) :=
  omap (fun e => match e with
                 | Call_full ctx _ samples n_samples => Some (ctx, samples, n_samples)
                 | _ => None
                 end) t.

(** The model paths handed to [whisper_init_from_file_with_params]. *)
Definition loads (t : list (event E)) : list cstring :=
  omap (fun e => match e with
                 | Call_init_from_file_with_params path_model _ => Some path_model
                 | _ => None
                 end) t.

(** The contexts handed to [whisper_reset_timings] and to
    [whisper_print_timings]. *)
Definition resets (t : list (event E)) : list whisper_context_ptr :=
  omap (fun e => match e with Call_reset_timings ctx => Some ctx | _ => None end) t.

Definition prints (t : list (event E)) : list whisper_context_ptr :=
  omap (fun e => match e with Call_print_timings ctx => Some ctx | _ => None end) t.

(** The warnings among the logcat lines. *)
Definition warnings (t : list (event E)) : list string :=
  omap (fun e => match e with
                 | Log ANDROID_LOG_WARN _ fmt _ => Some fmt
                 | _ => None
                 end) t.

(** The handles of a sequence of calls that [freeContext] passes on to the
    engine, and the configurations its runs of [fullTranscribe] build. *)
Definition released (cs : list invocation) : list whisper_context_ptr :=
  omap (fun c => match c with
                 | FreeContext context_ptr =>
                     if decide (context_of_jlong context_ptr <> NULL)
                     then Some (context_of_jlong context_ptr) else None
                 | _ => None
                 end) cs.

Definition requested (cs : list invocation)
  : list (whisper_full_params (other_full_params E)) :=
  omap (fun c => match c with
                 | FullTranscribe _ num_threads _ language_str translate =>
                     Some (configure E num_threads (resolve_language language_str) translate)
                 | _ => None
                 end) cs.

End Calls.

(** A session from start to end on the small engine. *)
Definition session : list invocation :=
  [GetSystemInfo;
   FreeContext 0;
   InitContext (Some "ggml-tiny.bin");
   FullTranscribe 4096 4 7 (Some "auto") JNI_FALSE;
   GetTextSegmentCount 4096;
   GetTextSegment 4096 0;
   FullTranscribe 4096 2 9 (Some "en") JNI_TRUE;
   GetTextSegmentT0 4096 0;
   GetTextSegmentT1 4096 0;
   FreeContext 4096].

(** * Properties *)

(** ** libc and VM facts *)

Lemma strcmp_refl s : strcmp s s = 0.
Proof.
  induction s as [|c r IH]; simpl; [reflexivity|].
  now rewrite Ascii.eqb_refl.
Qed.

Lemma strcmp_zero s1 s2 : strcmp s1 s2 = 0 <-> s1 = s2.
Proof.
  split; [|intros ->; apply strcmp_refl].
  revert s2; induction s1 as [|c1 r1 IH]; intros [|c2 r2]; simpl; try discriminate.
  - reflexivity.
  - destruct (Ascii.eqb_spec c1 c2) as [->|_].
    + intros H; f_equal; now apply IH.
    + destruct (_ <? _)%N; discriminate.
Qed.

Lemma resolve_language_auto : resolve_language (Some "auto") = None.
Proof. reflexivity. Qed.

Lemma resolve_language_other code :
  code <> "auto" -> resolve_language (Some code) = Some code.
Proof.
  intros Hne; unfold resolve_language.
  destruct (decide (strcmp code "auto" <> 0)) as [_|Heq]; [reflexivity|].
  exfalso; apply Hne, strcmp_zero.
  destruct (decide (strcmp code "auto" = 0)); [assumption|contradiction].
Qed.

Lemma resolve_language_None lang_chars :
  resolve_language lang_chars = None <->
  lang_chars = None \/ lang_chars = Some "auto".
Proof.
  split.
  - destruct lang_chars as [code|]; [|now left].
    destruct (decide (code = "auto")) as [->|Hne]; [now right|].
    rewrite resolve_language_other by assumption; discriminate.
  - intros [->| ->]; reflexivity.
Qed.

Lemma jvm_eta v :
  mk_jvm (float_arrays v) (utf_live v) (elems_live v) (write_backs v) = v.
Proof. now destruct v. Qed.

(** [JNI_ABORT] drops the native buffer, whatever it holds by then. *)
Lemma release_abort_keeps_array a elems v :
  float_arrays (jvm_ReleaseFloatArrayElements a elems JNI_ABORT v) = float_arrays v.
Proof. destruct elems; reflexivity. Qed.

(** The other two modes write the buffer back. *)
Lemma release_commit_writes_back a buf mode v old :
  mode <> JNI_ABORT -> float_arrays v !! a = Some old ->
  float_arrays (jvm_ReleaseFloatArrayElements a (Some buf) mode v) !! a = Some buf.
Proof.
  intros Hmode Hold; unfold jvm_ReleaseFloatArrayElements; simpl.
  destruct (decide (mode = JNI_ABORT)); [contradiction|].
  rewrite Hold; apply lookup_insert_eq.
Qed.

(** A release in a mode other than [JNI_ABORT] copies back, and the copy is
    counted, also when the buffer still equals the array. *)
Lemma release_writes_back_counted a buf mode v old :
  mode <> JNI_ABORT -> float_arrays v !! a = Some old ->
  write_backs (jvm_ReleaseFloatArrayElements a (Some buf) mode v) = S (write_backs v).
Proof.
  intros Hmode Hold; unfold jvm_ReleaseFloatArrayElements; cbn.
  destruct (decide (mode = JNI_ABORT)); [contradiction|].
  rewrite Hold, bool_decide_eq_true_2; [reflexivity|eauto].
Qed.

Lemma get_release_elements a v :
  let r := jvm_GetFloatArrayElements a v in
  r.1 = float_arrays v !! a /\
  float_arrays r.2 = float_arrays v /\
  jvm_ReleaseFloatArrayElements a r.1 JNI_ABORT r.2 = v.
Proof.
  unfold jvm_GetFloatArrayElements.
  destruct (float_arrays v !! a) as [elems|] eqn:Hl; simpl;
    repeat split; try reflexivity.
  apply jvm_eta.
Qed.

Lemma get_release_utf s v :
  let r := jvm_GetStringUTFChars s v in
  r.1 = s /\ jvm_ReleaseStringUTFChars s r.1 r.2 = v.
Proof. destruct s; simpl; split; try reflexivity; apply jvm_eta. Qed.

(** ** What each entry point does, in one equation *)

Section Runs.

Variable E : whisper_h.

Lemma initContext_run model_path_str w :
  let r := whisper_init_from_file_with_params E model_path_str
             (whisper_context_default_params E) (engine w) in
  initContext E model_path_str w =
  (jlong_of_context r.1,
   mk_world r.2 (vm w)
     (trace w ++
      [Log ANDROID_LOG_INFO TAG "Loading whisper.cpp model from: %s"
           [ArgString model_path_str];
       Call_init_from_file_with_params model_path_str
         (whisper_context_default_params E);
       if decide (r.1 = NULL)
       then Log ANDROID_LOG_WARN TAG "Failed to initialise whisper context" []
       else Log ANDROID_LOG_INFO TAG "Whisper context created successfully" []])).
Proof.
  destruct w as [l v t]; cbn zeta.
  unfold initContext, bind, GetStringUTFChars, ReleaseStringUTFChars, jni,
    LOGI, LOGW, emit, call, ret; cbn [engine vm trace].
  destruct (get_release_utf model_path_str v) as [Hchars Hrel].
  destruct (jvm_GetStringUTFChars model_path_str v) as [chars v1].
  cbn [fst snd] in Hchars, Hrel; subst chars.
  cbn [engine vm trace fst snd].
  destruct (whisper_init_from_file_with_params E model_path_str
              (whisper_context_default_params E) l) as [context l1].
  cbn [engine vm trace fst snd]; rewrite Hrel.
  destruct (decide (context = NULL)); cbn [engine vm trace];
    now rewrite <- !app_assoc.
Qed.

Lemma freeContext_null w : freeContext E 0 w = (tt, w).
Proof. reflexivity. Qed.

Lemma freeContext_run context_ptr w :
  context_ptr <> 0 ->
  freeContext E context_ptr w =
  (tt, mk_world (whisper_free E context_ptr (engine w)) (vm w)
         (trace w ++ [Call_free context_ptr;
                      Log ANDROID_LOG_INFO TAG "Whisper context freed" []])).
Proof.
  intros Hnz; unfold freeContext, context_of_jlong, NULL; cbn zeta.
  destruct (decide _) as [_|]; [|contradiction].
  unfold bind, call, LOGI, emit; cbn beta iota; cbn [engine vm trace].
  now rewrite <- app_assoc.
Qed.

Lemma fullTranscribe_run context_ptr num_threads audio_data language_str translate w :
  let context := context_of_jlong context_ptr in
  let params := configure E num_threads (resolve_language language_str) translate in
  let samples := float_arrays (vm w) !! audio_data in
  let n_samples := jvm_GetArrayLength audio_data (vm w) in
  let r := engine_run E context_ptr num_threads audio_data language_str translate w in
  fullTranscribe E context_ptr num_threads audio_data language_str translate w =
  (tt,
   mk_world
     (if decide (r.1 <> 0) then r.2 else whisper_print_timings E context r.2)
     (vm w)
     (trace w ++
      [Call_reset_timings context;
       Log ANDROID_LOG_INFO TAG
         "Running whisper_full with %d threads on %d samples, lang=%s, translate=%d"
         [ArgInt num_threads; ArgInt n_samples;
          ArgString (Some (default "auto" (resolve_language language_str)));
          ArgInt (Z.b2z (Params.translate params))];
       Call_full context params samples n_samples;
       if decide (r.1 <> 0)
       then Log ANDROID_LOG_WARN TAG "whisper_full failed" []
       else Call_print_timings context])).
Proof.
  destruct w as [l v t]; cbn zeta.
  unfold engine_run, fullTranscribe, bind, GetFloatArrayElements, GetArrayLength,
    GetStringUTFChars, ReleaseStringUTFChars, ReleaseFloatArrayElements, jni,
    LOGI, LOGW, emit, call, ret; cbn [engine vm trace].
  destruct (get_release_elements audio_data v) as (Hbuf & Harr & Hrel).
  destruct (jvm_GetFloatArrayElements audio_data v) as [buf v1].
  cbn [fst snd] in Hbuf, Harr, Hrel; subst buf.
  assert (Hlen : jvm_GetArrayLength audio_data v1 = jvm_GetArrayLength audio_data v).
  { unfold jvm_GetArrayLength; now rewrite Harr. }
  cbn [engine vm trace fst snd]; rewrite Hlen.
  destruct (get_release_utf language_str v1) as [Hchars Hrel'].
  destruct (jvm_GetStringUTFChars language_str v1) as [chars v2].
  cbn [fst snd] in Hchars, Hrel'; subst chars.
  cbn [engine vm trace fst snd].
  destruct (whisper_full E _ _ _ _ _) as [status l1].
  cbn [fst snd].
  destruct (decide (status <> 0)); cbn [engine vm trace fst snd];
    rewrite Hrel', Hrel, <- !app_assoc; reflexivity.
Qed.

(** The accessors read the library and change nothing. *)
Lemma getTextSegmentCount_run h w :
  getTextSegmentCount E h w = (whisper_full_n_segments E h (engine w), w).
Proof. reflexivity. Qed.

Lemma getTextSegment_run h i w :
  getTextSegment E h i w = (whisper_full_get_segment_text E h i (engine w), w).
Proof. reflexivity. Qed.

Lemma getTextSegmentT0_run h i w :
  getTextSegmentT0 E h i w = (whisper_full_get_segment_t0 E h i (engine w), w).
Proof. reflexivity. Qed.

Lemma getTextSegmentT1_run h i w :
  getTextSegmentT1 E h i w = (whisper_full_get_segment_t1 E h i (engine w), w).
Proof. reflexivity. Qed.

Lemma configurations_app (t1 t2 : list (event E)) :
  configurations E (t1 ++ t2) = configurations E t1 ++ configurations E t2.
Proof. apply omap_app. Qed.

Lemma freed_app (t1 t2 : list (event E)) :
  freed E (t1 ++ t2) = freed E t1 ++ freed E t2.
Proof. apply omap_app. Qed.

Lemma logcat_app (t1 t2 : list (event E)) :
  logcat E (t1 ++ t2) = logcat E t1 ++ logcat E t2.
Proof. apply omap_app. Qed.

(** A run hands exactly one configuration to the engine. *)
Lemma fullTranscribe_configuration context_ptr num_threads audio_data language_str translate w :
  configurations E
    (trace (fullTranscribe E context_ptr num_threads audio_data language_str translate w).2) =
  configurations E (trace w) ++
  [configure E num_threads (resolve_language language_str) translate].
Proof.
  rewrite fullTranscribe_run; cbn [snd trace].
  rewrite configurations_app; f_equal.
  cbn. now destruct (decide _).
Qed.

Lemma same_segments_refl ctx l : same_segments E ctx l l.
Proof. split; [reflexivity|intros; repeat split]. Qed.

Lemma same_segments_trans ctx l1 l2 l3 :
  same_segments E ctx l1 l2 -> same_segments E ctx l2 l3 -> same_segments E ctx l1 l3.
Proof.
  intros [Hn12 H12] [Hn23 H23]; split; [congruence|].
  intros i Hi.
  destruct (H12 i Hi) as (Ha & Hb & Hc).
  rewrite <- Hn12 in Hi.
  destruct (H23 i Hi) as (Ha' & Hb' & Hc').
  repeat split; congruence.
Qed.

Lemma ordered_segments_same ctx l l' :
  same_segments E ctx l l' -> ordered_segments E ctx l -> ordered_segments E ctx l'.
Proof.
  intros [Hn Hsame] Hord i Hi.
  rewrite Hn in Hi |- *.
  destruct (Hord i Hi) as [H01 Hnext].
  destruct (Hsame i Hi) as (_ & H0 & H1).
  rewrite H0, H1; split; [assumption|].
  intros Hlt.
  destruct (Hsame (i + 1)) as (_ & H0' & _); [lia|].
  rewrite H0'; auto.
Qed.

End Runs.

(** ** The small engine keeps the contracts *)

Lemma tiny_defaults_keep_strategy : defaults_keep_strategy tiny.
Proof. intros s; reflexivity. Qed.

Lemma tiny_timings_keep_segments : timings_keep_segments tiny.
Proof. intros ctx l; split; apply same_segments_refl. Qed.

Lemma tiny_failed_run_keeps_segments : failed_run_keeps_segments tiny.
Proof.
  intros ctx params samples n_samples l; cbn [whisper_full tiny].
  unfold tiny_full.
  destruct samples as [[|x xs]|]; cbn [fst snd]; intros Hst;
    try apply same_segments_refl.
  now contradiction Hst.
Qed.

Lemma tiny_successful_run_is_ordered : successful_run_is_ordered tiny.
Proof.
  intros ctx params samples n_samples l; cbn [whisper_full tiny].
  unfold tiny_full.
  destruct samples as [[|x xs]|]; cbn [fst snd]; try discriminate.
  intros _ i; cbn.
  unfold tiny_segments; rewrite !lookup_insert_eq; cbn.
  intros Hi; assert (i = 0) as -> by lia; cbn.
  split; [|lia].
  apply Z.div_pos; lia.
Qed.

Lemma tiny_system_info_is_static : system_info_is_static tiny.
Proof. eexists; split; [|intros l; reflexivity]. discriminate. Qed.

(** ** The second engine keeps them too *)

Lemma splitter_lookup m i :
  0 <= i < Z.of_nat m ->
  (splitter_segment <$> seq 0 m) !! Z.to_nat i = Some ("seg", i, i + 1).
Proof.
  intros Hi; rewrite list_lookup_fmap, lookup_seq_lt by lia; cbn.
  unfold splitter_segment; now rewrite Z2Nat.id by lia.
Qed.

Lemma splitter_timings_keep_segments : timings_keep_segments splitter.
Proof. intros ctx l; split; apply same_segments_refl. Qed.

Lemma splitter_successful_run_is_ordered : successful_run_is_ordered splitter.
Proof.
  intros ctx params samples n_samples l; cbn [whisper_full splitter].
  unfold splitter_full.
  destruct samples as [[|x xs]|]; cbn [fst snd]; try discriminate.
  intros _ i.
  cbn [whisper_full_n_segments whisper_full_get_segment_t0
         whisper_full_get_segment_t1 splitter].
  unfold tiny_segments; rewrite !lookup_insert_eq; cbn [default]; unfold id.
  rewrite length_fmap, length_seq.
  intros Hi; rewrite splitter_lookup by lia; cbn.
  split; [lia|].
  intros Hnext; rewrite splitter_lookup by lia; cbn; lia.
Qed.

Lemma splitter_system_info_is_static : system_info_is_static splitter.
Proof. eexists; split; [|intros l; reflexivity]. discriminate. Qed.

(** ** The gateway's contract *)

Section Claims.

Variable E : whisper_h.

(** C1. Every run of [fullTranscribe] hands the engine exactly one decoding
    configuration, and it is the low-latency single-utterance profile: single
    segment, no timestamp tokens, greedy sampling, no prior context.  The
    configuration is the same for every handle, audio array and world: of the
    caller's arguments only the thread count, the language and the translate
    flag enter it. *)
Theorem fullTranscribe_fixed_profile :
  defaults_keep_strategy E ->
  forall context_ptr num_threads audio_data language_str translate w,
  exists params,
    configurations E
      (trace (fullTranscribe E context_ptr num_threads audio_data
                language_str translate w).2) =
    configurations E (trace w) ++ [params] /\
    single_segment params = true /\
    no_timestamps params = true /\
    strategy params = WHISPER_SAMPLING_GREEDY /\
    no_context params = true /\
    forall context_ptr' audio_data' w',
      configurations E
        (trace (fullTranscribe E context_ptr' num_threads audio_data'
                  language_str translate w').2) =
      configurations E (trace w') ++ [params].
Proof.
  intros Hstrategy context_ptr num_threads audio_data language_str translate w.
  exists (configure E num_threads (resolve_language language_str) translate).
  split; [apply fullTranscribe_configuration|].
  repeat split; try reflexivity.
  - cbn. apply Hstrategy.
  - intros; apply fullTranscribe_configuration.
Qed.

(** C2. When the engine call inside [fullTranscribe] returns a non-zero
    status, the bridge prints the warning "whisper_full failed" as its last
    line and returns; after the failed [whisper_full] it calls nothing that
    could change the library, so the library is left as the engine left it
    and nothing is freed.  With an engine that keeps the segments of a
    session through its timing helpers and through a failed run, the
    accessors then observe the segments they observed before the call. *)
Theorem fullTranscribe_failure
    context_ptr num_threads audio_data language_str translate w :
  let context := context_of_jlong context_ptr in
  let params := configure E num_threads (resolve_language language_str) translate in
  let r := engine_run E context_ptr num_threads audio_data language_str translate w in
  let w' := (fullTranscribe E context_ptr num_threads audio_data
               language_str translate w).2 in
  r.1 <> 0 ->
  trace w' =
    trace w ++
    [Call_reset_timings context;
     Log ANDROID_LOG_INFO TAG
       "Running whisper_full with %d threads on %d samples, lang=%s, translate=%d"
       [ArgInt num_threads; ArgInt (jvm_GetArrayLength audio_data (vm w));
        ArgString (Some (default "auto" (resolve_language language_str)));
        ArgInt (Z.b2z (Params.translate params))];
     Call_full context params (float_arrays (vm w) !! audio_data)
       (jvm_GetArrayLength audio_data (vm w));
     Log ANDROID_LOG_WARN TAG "whisper_full failed" []] /\
  last (logcat E (trace w')) = Some (ANDROID_LOG_WARN, "whisper_full failed", []) /\
  engine w' = r.2 /\
  freed E (trace w') = freed E (trace w) /\
  (timings_keep_segments E -> failed_run_keeps_segments E ->
   (getTextSegmentCount E context_ptr w').1 = (getTextSegmentCount E context_ptr w).1 /\
   forall index, 0 <= index < (getTextSegmentCount E context_ptr w).1 ->
     (getTextSegment E context_ptr index w').1 = (getTextSegment E context_ptr index w).1 /\
     (getTextSegmentT0 E context_ptr index w').1 = (getTextSegmentT0 E context_ptr index w).1 /\
     (getTextSegmentT1 E context_ptr index w').1 = (getTextSegmentT1 E context_ptr index w).1).
Proof.
  cbn zeta; intros Hfail.
  rewrite fullTranscribe_run; cbn [snd trace engine].
  destruct (decide _) as [_|]; [|contradiction].
  split; [reflexivity|].
  split; [rewrite logcat_app, last_app; reflexivity|].
  split; [reflexivity|].
  split; [rewrite freed_app; cbn; apply app_nil_r|].
  intros Htimings Hkeep.
  rewrite !getTextSegmentCount_run; cbn [fst engine].
  assert (Hsame : same_segments E context_ptr (engine w)
            (engine_run E context_ptr num_threads audio_data language_str translate w).2).
  { eapply same_segments_trans;
      [apply (proj1 (Htimings context_ptr (engine w)))|].
    apply Hkeep, Hfail. }
  destruct Hsame as [Hn Hsegs]; split; [exact Hn|].
  intros index Hindex.
  rewrite !getTextSegment_run, !getTextSegmentT0_run, !getTextSegmentT1_run.
  cbn [fst engine]; now apply Hsegs.
Qed.

(** C3. The language handed to the engine is null, which asks for automatic
    detection, when [language_str] is "auto"; any other string is handed to
    the engine as it is. *)
Theorem fullTranscribe_language
    context_ptr num_threads audio_data (code : string) translate w :
  exists params,
    configurations E
      (trace (fullTranscribe E context_ptr num_threads audio_data
                (Some code) translate w).2) =
    configurations E (trace w) ++ [params] /\
    (code = "auto" -> language params = None) /\
    (code <> "auto" -> language params = Some code).
Proof.
  exists (configure E num_threads (resolve_language (Some code)) translate).
  split; [apply fullTranscribe_configuration|].
  cbn [language configure]; split.
  - intros ->; apply resolve_language_auto.
  - apply resolve_language_other.
Qed.

(** C4. After a run of [fullTranscribe] in which the engine reports success,
    the accessors return what that run of [whisper_full] produced: the
    segment count is the engine's, and for every index below it the start and
    the end are the engine's 64-bit timestamps, unchanged.  So the timestamps
    returned are ordered as the engine's well-formed output is: no start is
    after its end, and none is after the start of the next segment. *)
Theorem segments_ordered_after_run
    context_ptr num_threads audio_data language_str translate w :
  timings_keep_segments E ->
  successful_run_is_ordered E ->
  let r := engine_run E context_ptr num_threads audio_data language_str translate w in
  r.1 = 0 ->
  let context := context_of_jlong context_ptr in
  let w' := (fullTranscribe E context_ptr num_threads audio_data
               language_str translate w).2 in
  let segmentCount := (getTextSegmentCount E context_ptr w').1 in
  let segmentStart i := (getTextSegmentT0 E context_ptr i w').1 in
  let segmentEnd i := (getTextSegmentT1 E context_ptr i w').1 in
  segmentCount = whisper_full_n_segments E context r.2 /\
  forall i, 0 <= i < segmentCount ->
    segmentStart i = whisper_full_get_segment_t0 E context i r.2 /\
    segmentEnd i = whisper_full_get_segment_t1 E context i r.2 /\
    segmentStart i <= segmentEnd i /\
    (i + 1 < segmentCount -> segmentStart i <= segmentStart (i + 1)).
Proof.
  intros Htimings Hordered; cbn zeta; intros Hok.
  rewrite fullTranscribe_run; cbn [snd].
  destruct (decide _) as [Hne|_]; [contradiction|].
  rewrite getTextSegmentCount_run; cbn [fst engine].
  set (l := (engine_run E context_ptr num_threads audio_data language_str translate w).2).
  destruct (proj2 (Htimings (context_of_jlong context_ptr) l)) as [Hcount Hsame].
  unfold context_of_jlong in *.
  split; [exact Hcount|].
  intros i Hi.
  rewrite !getTextSegmentT0_run, getTextSegmentT1_run; cbn [fst engine].
  rewrite Hcount in Hi |- *.
  destruct (Hsame i Hi) as (_ & H0 & H1).
  destruct (Hordered _ _ _ _ _ Hok i Hi) as [H01 Hnext].
  rewrite H0, H1.
  repeat split; try assumption.
  intros Hlt.
  destruct (Hsame (i + 1)) as (_ & H0' & _); [lia|].
  rewrite H0'; now apply Hnext.
Qed.

(** C5. [initContext] returns the context the engine returned, as a handle:
    the handle is non-null exactly when the engine loaded the model, it casts
    back to the engine's context, and it is the null sentinel when the engine
    failed.  On either path the native copy of the path has been released,
    so the VM is as before, and the library is as the engine's loader left
    it. *)
Theorem initContext_handle model_path_str w :
  let result :=
    whisper_init_from_file_with_params E model_path_str
      (whisper_context_default_params E) (engine w) in
  let handle := (initContext E model_path_str w).1 in
  let w' := (initContext E model_path_str w).2 in
  (handle <> 0 <-> result.1 <> NULL) /\
  context_of_jlong handle = result.1 /\
  (result.1 = NULL ->
   handle = 0 /\
   last (logcat E (trace w')) =
     Some (ANDROID_LOG_WARN, "Failed to initialise whisper context", [])) /\
  vm w' = vm w /\
  engine w' = result.2.
Proof.
  cbn zeta; rewrite initContext_run; cbn [fst snd vm engine trace].
  unfold jlong_of_context, context_of_jlong, NULL.
  split; [reflexivity|].
  split; [reflexivity|].
  split; [|split; reflexivity].
  intros Hnull; split; [exact Hnull|].
  rewrite logcat_app, last_app.
  destruct (decide _) as [_|Hne]; [reflexivity|].
  contradiction.
Qed.

(** C6. [freeContext] on the null handle does nothing: the world is
    unchanged, and so it can be repeated at will.  On any other handle it
    calls [whisper_free] on that context exactly once. *)
Theorem freeContext_null_or_once :
  (forall w, freeContext E 0 w = (tt, w)) /\
  (forall w, (freeContext E 0 (freeContext E 0 w).2).2 = w) /\
  (forall context_ptr w, context_ptr <> 0 ->
     let w' := (freeContext E context_ptr w).2 in
     engine w' = whisper_free E (context_of_jlong context_ptr) (engine w) /\
     freed E (trace w') = freed E (trace w) ++ [context_of_jlong context_ptr] /\
     vm w' = vm w).
Proof.
  split; [intros; apply freeContext_null|].
  split; [intros; now rewrite !freeContext_null|].
  intros context_ptr w Hnz; cbn zeta.
  rewrite freeContext_run by assumption; cbn [snd engine trace vm].
  repeat split.
  now rewrite freed_app.
Qed.

(** C7. The translate flag reaches the engine: the configuration of the run
    asks for translation when the flag is [JNI_TRUE] and for transcription
    when it is [JNI_FALSE]. *)
Theorem fullTranscribe_translate
    context_ptr num_threads audio_data language_str translate w :
  exists params,
    configurations E
      (trace (fullTranscribe E context_ptr num_threads audio_data
                language_str translate w).2) =
    configurations E (trace w) ++ [params] /\
    (translate = JNI_TRUE -> Params.translate params = true) /\
    (translate = JNI_FALSE -> Params.translate params = false).
Proof.
  exists (configure E num_threads (resolve_language language_str) translate).
  split; [apply fullTranscribe_configuration|].
  split; intros ->; reflexivity.
Qed.

(** C8. [getSystemInfo] takes no handle and reads no session: in every
    world it returns the engine's system description as a Java string and
    leaves the world as it was.  With an engine whose description is static,
    that is one non-empty string of the engine, returned in every world,
    whether or not a session exists. *)
Theorem getSystemInfo_static :
  system_info_is_static E ->
  (forall w, getSystemInfo E w = (whisper_print_system_info E (engine w), w)) /\
  exists description,
    description <> "" /\
    (forall l, whisper_print_system_info E l = Some description) /\
    forall w, getSystemInfo E w = (Some description, w).
Proof.
  intros (description & Hne & Hinfo).
  split; [reflexivity|].
  exists description; split; [assumption|]; split; [assumption|].
  intros w; unfold getSystemInfo, bind, peek, NewStringUTF, ret, jvm_NewStringUTF.
  now rewrite Hinfo.
Qed.

(** C9. [fullTranscribe] leaves the caller's audio array, and every other
    array of the VM, as it found it, whether the engine succeeds or fails,
    and it does so by releasing the native buffer with abort semantics: over
    the whole call the VM copies no buffer back into an array, and no element
    buffer stays behind.  (A release with mode 0 or [JNI_COMMIT] copies back
    and is counted, see [release_writes_back_counted].) *)
Theorem fullTranscribe_keeps_audio
    context_ptr num_threads audio_data language_str translate w :
  let w' := (fullTranscribe E context_ptr num_threads audio_data
               language_str translate w).2 in
  float_arrays (vm w') = float_arrays (vm w) /\
  write_backs (vm w') = write_backs (vm w) /\
  elems_live (vm w') = elems_live (vm w).
Proof.
  cbn zeta; rewrite fullTranscribe_run; cbn [snd vm].
  repeat split.
Qed.

(** C10. The test for the sentinel is an exact comparison of bytes.  The
    engine is handed a null language, that is automatic detection, only when
    the language string is null or is exactly "auto"; "Auto", "AUTO" and any
    other string are handed on as language codes. *)
Theorem auto_sentinel_exact
    context_ptr num_threads audio_data language_str translate w :
  exists params,
    configurations E
      (trace (fullTranscribe E context_ptr num_threads audio_data
                language_str translate w).2) =
    configurations E (trace w) ++ [params] /\
    language params = resolve_language language_str /\
    (language params = None <->
     language_str = None \/ language_str = Some "auto") /\
    (forall code, language_str = Some code -> code <> "auto" ->
       language params = Some code) /\
    resolve_language (Some "Auto") = Some "Auto" /\
    resolve_language (Some "AUTO") = Some "AUTO" /\
    (forall s, strcmp s "auto" = 0 <-> s = "auto").
Proof.
  exists (configure E num_threads (resolve_language language_str) translate).
  split; [apply fullTranscribe_configuration|].
  cbn [language configure].
  split; [reflexivity|].
  split; [apply resolve_language_None|].
  split; [intros code ->; apply resolve_language_other|].
  repeat split; try apply strcmp_zero.
Qed.

End Claims.

(** ** The contract on the small engine *)

(** C1 on the loaded session: one configuration, with the four settings. *)
Lemma fullTranscribe_fixed_profile_witness :
  defaults_keep_strategy tiny /\
  exists params,
    configurations tiny (trace transcribed) =
    configurations tiny (trace loaded) ++ [params] /\
    single_segment params = true /\
    no_timestamps params = true /\
    strategy params = WHISPER_SAMPLING_GREEDY /\
    no_context params = true.
Proof.
  split; [intros s; reflexivity|].
  destruct (fullTranscribe_fixed_profile tiny tiny_defaults_keep_strategy
              4096 4 7 (Some "auto") JNI_FALSE loaded)
    as (params & Hc & H1 & H2 & H3 & H4 & _).
  exists params; repeat split; assumption.
Defined.

(** C2 on a run over the empty array, after a successful run: the engine
    reports -1, the warning is the last line, and the accessors still show the
    segment of the earlier run. *)
Lemma fullTranscribe_failure_witness :
  let w' := (fullTranscribe tiny 4096 4 9 (Some "en") JNI_FALSE transcribed).2 in
  (engine_run tiny 4096 4 9 (Some "en") JNI_FALSE transcribed).1 <> 0 /\
  timings_keep_segments tiny /\
  failed_run_keeps_segments tiny /\
  last (logcat tiny (trace w')) = Some (ANDROID_LOG_WARN, "whisper_full failed", []) /\
  (getTextSegmentCount tiny 4096 w').1 = 1 /\
  (getTextSegment tiny 4096 0 w').1 = Some "hola" /\
  (getTextSegmentT0 tiny 4096 0 w').1 = 0 /\
  (getTextSegmentT1 tiny 4096 0 w').1 = 2.
Proof.
  cbn zeta.
  assert (Hfail : (engine_run tiny 4096 4 9 (Some "en") JNI_FALSE transcribed).1 <> 0)
    by (vm_compute; discriminate).
  split; [exact Hfail|].
  split; [exact tiny_timings_keep_segments|].
  split; [exact tiny_failed_run_keeps_segments|].
  destruct (fullTranscribe_failure tiny 4096 4 9 (Some "en") JNI_FALSE transcribed Hfail)
    as (_ & Hlast & _ & _ & Hsegments).
  split; [exact Hlast|].
  destruct (Hsegments tiny_timings_keep_segments tiny_failed_run_keeps_segments)
    as [Hcount Hat].
  split; [rewrite Hcount; reflexivity|].
  destruct (Hat 0) as (Htext & Ht0 & Ht1); [vm_compute; split; congruence|].
  rewrite Htext, Ht0, Ht1; repeat split.
Defined.

(** C4 on the second engine: the run over 480 samples gives three segments,
    and the accessors return their timestamps in order. *)
Lemma segments_ordered_after_run_witness :
  let w' := (fullTranscribe splitter 4096 4 7 (Some "auto") JNI_FALSE split_loaded).2 in
  timings_keep_segments splitter /\
  successful_run_is_ordered splitter /\
  (engine_run splitter 4096 4 7 (Some "auto") JNI_FALSE split_loaded).1 = 0 /\
  (getTextSegmentCount splitter 4096 w').1 = 3 /\
  map (fun i => (getTextSegmentT0 splitter 4096 i w').1) [0; 1; 2] = [0; 1; 2] /\
  map (fun i => (getTextSegmentT1 splitter 4096 i w').1) [0; 1; 2] = [1; 2; 3] /\
  forall i, 0 <= i < 3 ->
    (getTextSegmentT0 splitter 4096 i w').1 <= (getTextSegmentT1 splitter 4096 i w').1 /\
    (i + 1 < 3 ->
     (getTextSegmentT0 splitter 4096 i w').1 <=
     (getTextSegmentT0 splitter 4096 (i + 1) w').1).
Proof.
  cbn zeta.
  split; [exact splitter_timings_keep_segments|].
  split; [exact splitter_successful_run_is_ordered|].
  split; [reflexivity|].
  destruct (segments_ordered_after_run splitter 4096 4 7 (Some "auto") JNI_FALSE
              split_loaded splitter_timings_keep_segments
              splitter_successful_run_is_ordered eq_refl)
    as [Hcount Hsegments].
  cbn zeta in Hcount, Hsegments.
  assert (Hthree :
    (getTextSegmentCount splitter 4096
       (fullTranscribe splitter 4096 4 7 (Some "auto") JNI_FALSE split_loaded).2).1 = 3)
    by (rewrite Hcount; reflexivity).
  split; [exact Hthree|].
  rewrite Hthree in Hsegments.
  split; [|split].
  - cbn [map].
    destruct (Hsegments 0) as (-> & _); [lia|].
    destruct (Hsegments 1) as (-> & _); [lia|].
    destruct (Hsegments 2) as (-> & _); [lia|].
    reflexivity.
  - cbn [map].
    destruct (Hsegments 0) as (_ & -> & _); [lia|].
    destruct (Hsegments 1) as (_ & -> & _); [lia|].
    destruct (Hsegments 2) as (_ & -> & _); [lia|].
    reflexivity.
  - intros i Hi; destruct (Hsegments i Hi) as (_ & _ & Hle & Hnext).
    split; assumption.
Defined.

(** C8 on both engines, before any session exists and after one has been
    used: each engine's own description comes back. *)
Lemma getSystemInfo_static_witness :
  system_info_is_static tiny /\
  system_info_is_static splitter /\
  (getSystemInfo tiny boot).1 = Some "NEON = 1 | ARM_FMA = 1 | FP16_VA = 1 | " /\
  getSystemInfo tiny transcribed = ((getSystemInfo tiny boot).1, transcribed) /\
  (getSystemInfo splitter split_boot).1 = Some "AVX = 1 | AVX2 = 1 | F16C = 1 | " /\
  getSystemInfo splitter split_loaded =
    ((getSystemInfo splitter split_boot).1, split_loaded).
Proof.
  split; [exact tiny_system_info_is_static|].
  split; [exact splitter_system_info_is_static|].
  destruct (getSystemInfo_static tiny tiny_system_info_is_static)
    as (Hpass & description & _ & Hengine & Hinfo).
  destruct (getSystemInfo_static splitter splitter_system_info_is_static)
    as (Hpass' & description' & _ & Hengine' & Hinfo').
  rewrite !Hinfo, !Hinfo'; cbn [fst].
  specialize (Hengine ∅); specialize (Hengine' ∅).
  cbn in Hengine, Hengine'.
  injection Hengine as <-; injection Hengine' as <-.
  repeat split.
Defined.

(** ** The entry points run on the small engine *)

Example initContext_loads :
  (initContext tiny (Some "ggml-tiny.bin") boot).1 = 4096 /\
  logcat tiny (trace loaded) =
    [(ANDROID_LOG_INFO, "Loading whisper.cpp model from: %s",
      [ArgString (Some "ggml-tiny.bin")]);
     (ANDROID_LOG_INFO, "Whisper context created successfully", [])].
Proof. split; reflexivity. Qed.

Example initContext_fails :
  initContext tiny (Some "notes.txt") boot =
  (0, mk_world (engine boot) (vm boot)
        [Log ANDROID_LOG_INFO TAG "Loading whisper.cpp model from: %s"
             [ArgString (Some "notes.txt")];
         Call_init_from_file_with_params (E := tiny) (Some "notes.txt") tt;
         Log ANDROID_LOG_WARN TAG "Failed to initialise whisper context" []]).
Proof. reflexivity. Qed.

Example freeContext_releases :
  let w' := (freeContext tiny 4096 transcribed).2 in
  freed tiny (trace w') = [4096] /\
  (getTextSegmentCount tiny 4096 w').1 = 0 /\
  freeContext tiny 0 w' = (tt, w').
Proof. repeat split. Qed.

Example languages_passed :
  map (fun code =>
         language <$>
           last (configurations tiny
                   (trace (fullTranscribe tiny 4096 4 7 code JNI_FALSE loaded).2)))
      [Some "auto"; Some "Auto"; Some "AUTO"; Some "en"; Some ""; None] =
  [Some None; Some (Some "Auto"); Some (Some "AUTO"); Some (Some "en");
   Some (Some ""); Some None].
Proof. reflexivity. Qed.

Example translate_passed :
  map (fun flag =>
         Params.translate <$>
           last (configurations tiny
                   (trace (fullTranscribe tiny 4096 4 7 (Some "es") flag loaded).2)))
      [JNI_FALSE; JNI_TRUE] =
  [Some false; Some true].
Proof. reflexivity. Qed.

Example transcribed_segment :
  (getTextSegmentCount tiny 4096 transcribed).1 = 1 /\
  (getTextSegment tiny 4096 0 transcribed).1 = Some "hola" /\
  (getTextSegmentT0 tiny 4096 0 transcribed).1 = 0 /\
  (getTextSegmentT1 tiny 4096 0 transcribed).1 = 2 /\
  vm transcribed = vm boot.
Proof. repeat split. Qed.

(** Mode 0 in place of [JNI_ABORT] would have written a changed buffer back. *)
Example release_modes :
  float_arrays (jvm_ReleaseFloatArrayElements 9 (Some [1]) 0 (vm boot)) !! 9 = Some [1] /\
  float_arrays (jvm_ReleaseFloatArrayElements 9 (Some [1]) JNI_ABORT (vm boot)) !! 9 = Some [].
Proof. split; reflexivity. Qed.

(** * Further properties of the entry points *)

Section Further.

Variable E : whisper_h.

Lemma runs_app (t1 t2 : list (event E)) : runs E (t1 ++ t2) = runs E t1 ++ runs E t2.
Proof. apply omap_app. Qed.

Lemma loads_app (t1 t2 : list (event E)) : loads E (t1 ++ t2) = loads E t1 ++ loads E t2.
Proof. apply omap_app. Qed.

Lemma resets_app (t1 t2 : list (event E)) : resets E (t1 ++ t2) = resets E t1 ++ resets E t2.
Proof. apply omap_app. Qed.

Lemma prints_app (t1 t2 : list (event E)) : prints E (t1 ++ t2) = prints E t1 ++ prints E t2.
Proof. apply omap_app. Qed.

Lemma warnings_app (t1 t2 : list (event E)) :
  warnings E (t1 ++ t2) = warnings E t1 ++ warnings E t2.
Proof. apply omap_app. Qed.

Lemma freeContext_world context_ptr w :
  (freeContext E context_ptr w).2 =
  if decide (context_of_jlong context_ptr <> NULL)
  then mk_world (whisper_free E (context_of_jlong context_ptr) (engine w)) (vm w)
         (trace w ++ [Call_free (context_of_jlong context_ptr);
                      Log ANDROID_LOG_INFO TAG "Whisper context freed" []])
  else w.
Proof.
  unfold freeContext; cbn zeta.
  destruct (decide _) as [_|_]; [|reflexivity].
  unfold bind, call, LOGI, emit; cbn beta iota; cbn [engine vm trace snd].
  now rewrite <- app_assoc.
Qed.


(** X2. Besides the four settings of the profile, the configuration of a run
    carries the caller's thread count as it is, offset zero and all four
    print flags off; its strategy and every field the bridge does not name
    are those of the engine's greedy defaults. *)
Theorem fullTranscribe_defaults_frame
    context_ptr num_threads audio_data language_str translate w :
  exists params,
    configurations E
      (trace (fullTranscribe E context_ptr num_threads audio_data
                language_str translate w).2) =
    configurations E (trace w) ++ [params] /\
    n_threads params = num_threads /\
    offset_ms params = 0 /\
    print_realtime params = false /\
    print_progress params = false /\
    print_timestamps params = false /\
    print_special params = false /\
    strategy params = strategy (whisper_full_default_params E WHISPER_SAMPLING_GREEDY) /\
    other params = other (whisper_full_default_params E WHISPER_SAMPLING_GREEDY).
Proof.
  exists (configure E num_threads (resolve_language language_str) translate).
  split; [apply fullTranscribe_configuration|].
  repeat split.
Qed.

(** X3. Translation is requested exactly when the flag is [JNI_TRUE]: any
    other byte, not only [JNI_FALSE], gives transcription. *)
Theorem fullTranscribe_translate_iff
    context_ptr num_threads audio_data language_str translate w :
  exists params,
    configurations E
      (trace (fullTranscribe E context_ptr num_threads audio_data
                language_str translate w).2) =
    configurations E (trace w) ++ [params] /\
    (Params.translate params = true <-> translate = JNI_TRUE).
Proof.
  exists (configure E num_threads (resolve_language language_str) translate).
  split; [apply fullTranscribe_configuration|].
  cbn [Params.translate configure]; apply bool_decide_eq_true.
Qed.

(** X4. The first line a run writes is the info line with the thread count,
    the array's length, the language and the translate flag as 0 or 1.  The
    language shown is never null: it reads "auto" exactly when the engine is
    asked to detect the language, and is the code handed to the engine
    otherwise. *)
Theorem fullTranscribe_info_line
    context_ptr num_threads audio_data language_str translate w :
  exists params shown rest,
    configurations E
      (trace (fullTranscribe E context_ptr num_threads audio_data
                language_str translate w).2) =
    configurations E (trace w) ++ [params] /\
    logcat E
      (trace (fullTranscribe E context_ptr num_threads audio_data
                language_str translate w).2) =
    logcat E (trace w) ++
    (ANDROID_LOG_INFO,
     "Running whisper_full with %d threads on %d samples, lang=%s, translate=%d",
     [ArgInt num_threads; ArgInt (jvm_GetArrayLength audio_data (vm w));
      ArgString (Some shown);
      ArgInt (if Params.translate params then 1 else 0)]) :: rest /\
    (shown = "auto" <-> language params = None) /\
    (forall code, language params = Some code -> shown = code).
Proof.
  exists (configure E num_threads (resolve_language language_str) translate),
    (default "auto" (resolve_language language_str)).
  eexists; split; [apply fullTranscribe_configuration|].
  rewrite fullTranscribe_run; cbn [snd trace]; rewrite logcat_app.
  split; [f_equal; cbn; reflexivity|].
  cbn [language configure].
  destruct (resolve_language language_str) as [code|] eqn:Hlang; cbn.
  - split; [|intros ? [= ->]; reflexivity].
    split; [|discriminate].
    intros ->; exfalso.
    assert (Hnone : resolve_language language_str = None)
      by (apply resolve_language_None; destruct language_str as [s|];
          [|now left]; right; f_equal;
          unfold resolve_language in Hlang;
          destruct (decide _); congruence).
    congruence.
  - split; [tauto|discriminate].
Qed.

(** X5. A run resets the timings of its context before it calls
    [whisper_full]; afterwards it prints the timings exactly when the status
    is zero and writes a warning exactly when it is not. *)
Theorem fullTranscribe_timings
    context_ptr num_threads audio_data language_str translate w :
  let context := context_of_jlong context_ptr in
  let r := engine_run E context_ptr num_threads audio_data language_str translate w in
  let w' := (fullTranscribe E context_ptr num_threads audio_data
               language_str translate w).2 in
  (exists line params samples n_samples tail,
     trace w' = trace w ++
       [Call_reset_timings context; line;
        Call_full context params samples n_samples] ++ tail) /\
  resets E (trace w') = resets E (trace w) ++ [context] /\
  prints E (trace w') = prints E (trace w) ++ (if decide (r.1 = 0) then [context] else []) /\
  warnings E (trace w') =
    warnings E (trace w) ++ (if decide (r.1 = 0) then [] else ["whisper_full failed"]) /\
  engine w' = (if decide (r.1 = 0) then whisper_print_timings E context r.2 else r.2).
Proof.
  cbn zeta; rewrite fullTranscribe_run; cbn [snd trace engine].
  split; [do 5 eexists; f_equal; reflexivity|].
  rewrite resets_app, prints_app, warnings_app.
  destruct (decide (_ <> 0)) as [Hne|Heq];
    destruct (decide (_ = 0)) as [Hz|Hnz]; try contradiction;
    repeat split.
Qed.

(** X6. [initContext] calls the engine's loader once, with the path as the
    VM gave it and without a check for null; it writes the info line with
    the path and then one line more, a warning exactly when the engine
    returned null; it frees no context and runs no inference. *)
Theorem initContext_calls_and_logs model_path_str w :
  let result :=
    whisper_init_from_file_with_params E model_path_str
      (whisper_context_default_params E) (engine w) in
  let w' := (initContext E model_path_str w).2 in
  loads E (trace w') = loads E (trace w) ++ [model_path_str] /\
  logcat E (trace w') =
    logcat E (trace w) ++
    [(ANDROID_LOG_INFO, "Loading whisper.cpp model from: %s", [ArgString model_path_str]);
     if decide (result.1 = NULL)
     then (ANDROID_LOG_WARN, "Failed to initialise whisper context", [])
     else (ANDROID_LOG_INFO, "Whisper context created successfully", [])] /\
  warnings E (trace w') =
    warnings E (trace w) ++
    (if decide (result.1 = NULL) then ["Failed to initialise whisper context"] else []) /\
  freed E (trace w') = freed E (trace w) /\
  runs E (trace w') = runs E (trace w).
Proof.
  cbn zeta; rewrite initContext_run; cbn [snd trace].
  rewrite loads_app, logcat_app, warnings_app, freed_app, runs_app.
  destruct (decide _); cbn; rewrite ?app_nil_r; repeat split.
Qed.

(** X7. Freeing the handle [initContext] returned is safe on both paths:
    when the model was loaded [whisper_free] is called once, on the context
    the engine returned; when loading failed the engine is not called at
    all.  Either way the VM is as before. *)
Theorem initContext_then_freeContext model_path_str w :
  let result :=
    whisper_init_from_file_with_params E model_path_str
      (whisper_context_default_params E) (engine w) in
  let handle := (initContext E model_path_str w).1 in
  let w1 := (initContext E model_path_str w).2 in
  let w2 := (freeContext E handle w1).2 in
  freed E (trace w2) =
    freed E (trace w) ++ (if decide (result.1 = NULL) then [] else [result.1]) /\
  engine w2 =
    (if decide (result.1 = NULL) then result.2 else whisper_free E result.1 result.2) /\
  vm w2 = vm w.
Proof.
  cbn zeta; rewrite freeContext_world, initContext_run; cbn [fst snd].
  unfold jlong_of_context, context_of_jlong.
  destruct (decide (_ <> NULL)) as [Hne|Heq];
    destruct (decide (_ = NULL)) as [Hz|Hnz]; try contradiction;
    cbn [engine vm trace]; rewrite ?freed_app; cbn; rewrite ?app_nil_r;
    repeat split.
Qed.

(** X8. The bridge keeps no record of what it has freed: a second
    [freeContext] on the same non-null handle calls [whisper_free] on the
    same context again. *)
Theorem freeContext_twice context_ptr w :
  context_ptr <> 0 ->
  let w2 := (freeContext E context_ptr (freeContext E context_ptr w).2).2 in
  freed E (trace w2) =
    freed E (trace w) ++ [context_of_jlong context_ptr; context_of_jlong context_ptr] /\
  engine w2 =
    whisper_free E (context_of_jlong context_ptr)
      (whisper_free E (context_of_jlong context_ptr) (engine w)).
Proof.
  intros Hnz; cbn zeta.
  rewrite !freeContext_world.
  destruct (decide _) as [_|Hz]; [|contradiction].
  cbn [engine vm trace]; rewrite !freed_app, <- app_assoc.
  split; reflexivity.
Qed.

End Further.

(** ** Sequences of calls *)

Section Sessions.

Variable E : whisper_h.

Lemma invoke_all_cons c cs (w : world E) :
  invoke_all E (c :: cs) w = invoke_all E cs (invoke E c w).
Proof. reflexivity. Qed.

Lemma released_cons c cs : released (c :: cs) = released [c] ++ released cs.
Proof. change (c :: cs) with ([c] ++ cs); apply omap_app. Qed.

Lemma requested_cons c cs : requested E (c :: cs) = requested E [c] ++ requested E cs.
Proof. change (c :: cs) with ([c] ++ cs); apply omap_app. Qed.

Lemma invoke_vm c (w : world E) : vm (invoke E c w) = vm w.
Proof.
  destruct c; cbn [invoke]; try reflexivity.
  - now rewrite initContext_run.
  - rewrite freeContext_world; now destruct (decide _).
  - now rewrite fullTranscribe_run.
Qed.

Lemma invoke_freed c (w : world E) :
  freed E (trace (invoke E c w)) = freed E (trace w) ++ released [c].
Proof.
  destruct c; cbn [invoke released omap]; rewrite ?app_nil_r; try reflexivity.
  - rewrite initContext_run; cbn [snd trace]; rewrite freed_app.
    destruct (decide _); cbn; now rewrite app_nil_r.
  - rewrite freeContext_world; unfold released; cbn.
    destruct (decide _); cbn [trace]; rewrite ?freed_app, ?app_nil_r; reflexivity.
  - rewrite fullTranscribe_run; cbn [snd trace]; rewrite freed_app.
    destruct (decide _); cbn; now rewrite app_nil_r.
Qed.

Lemma invoke_configurations c (w : world E) :
  configurations E (trace (invoke E c w)) =
  configurations E (trace w) ++ requested E [c].
Proof.
  destruct c; cbn [invoke requested omap]; rewrite ?app_nil_r; try reflexivity.
  - rewrite initContext_run; cbn [snd trace]; rewrite configurations_app.
    destruct (decide _); cbn; now rewrite app_nil_r.
  - rewrite freeContext_world; destruct (decide _); cbn [trace]; [|reflexivity].
    rewrite configurations_app; cbn; now rewrite app_nil_r.
  - apply fullTranscribe_configuration.
Qed.

(** X9. No sequence of calls into the bridge changes a Java array or leaves
    a native buffer behind: after any number of loads, runs, reads and frees,
    failed or not, the VM is as it was. *)
Theorem invoke_all_keeps_vm cs (w : world E) :
  vm (invoke_all E cs w) = vm w.
Proof.
  revert w; induction cs as [|c cs IH]; intros w; [reflexivity|].
  now rewrite invoke_all_cons, IH, invoke_vm.
Qed.

(** X10. Over any sequence of calls, [whisper_free] is called once for each
    [freeContext] on a non-null handle, in order, on that handle's context,
    and for nothing else: never on null, and never by another entry point. *)
Theorem invoke_all_freed cs (w : world E) :
  freed E (trace (invoke_all E cs w)) = freed E (trace w) ++ released cs /\
  NULL ∉ released cs.
Proof.
  split.
  - revert w; induction cs as [|c cs IH]; intros w; [cbn; now rewrite app_nil_r|].
    now rewrite invoke_all_cons, IH, invoke_freed, (released_cons c cs), app_assoc.
  - unfold released; rewrite list_elem_of_omap.
    intros (c & _ & Hc); destruct c; try discriminate.
    destruct (decide _) as [Hne|]; [|discriminate].
    injection Hc as Hc; congruence.
Qed.

(** X11. The bridge carries nothing from one run to the next: over any
    sequence of calls the configurations handed to the engine are, in order,
    those built from the arguments of each [fullTranscribe] alone, and every
    one of them has the single-segment, no-timestamps and no-context settings
    on. *)
Theorem invoke_all_configurations cs (w : world E) :
  configurations E (trace (invoke_all E cs w)) =
    configurations E (trace w) ++ requested E cs /\
  Forall (fun params =>
            single_segment params = true /\
            no_timestamps params = true /\
            no_context params = true) (requested E cs).
Proof.
  split.
  - revert w; induction cs as [|c cs IH]; intros w; [cbn; now rewrite app_nil_r|].
    now rewrite invoke_all_cons, IH, invoke_configurations, (requested_cons c cs), app_assoc.
  - apply Forall_forall; intros params.
    unfold requested; rewrite list_elem_of_omap.
    intros (c & _ & Hc); destruct c; try discriminate.
    injection Hc as <-; repeat split.
Qed.

End Sessions.

(** ** The further properties on the small engine *)

(** X8 on the loaded session: the context is handed to the engine twice. *)
Lemma freeContext_twice_witness :
  (4096 : jlong) <> 0 /\
  freed tiny (trace (freeContext tiny 4096 (freeContext tiny 4096 loaded).2).2) =
  [4096; 4096].
Proof.
  split; [discriminate|].
  exact (proj1 (freeContext_twice tiny 4096 loaded ltac:(discriminate))).
Defined.

Example session_trace :
  let w' := invoke_all tiny session boot in
  vm w' = vm boot /\
  loads tiny (trace w') = [Some "ggml-tiny.bin"] /\
  runs tiny (trace w') = [(4096, Some silence, 320); (4096, Some [], 0)] /\
  map language (configurations tiny (trace w')) = [None; Some "en"] /\
  map Params.translate (configurations tiny (trace w')) = [false; true] /\
  resets tiny (trace w') = [4096; 4096] /\
  prints tiny (trace w') = [4096] /\
  warnings tiny (trace w') = ["whisper_full failed"] /\
  freed tiny (trace w') = [4096].
Proof. repeat split. Qed.

Example null_path :
  let w' := invoke tiny (InitContext None) boot in
  loads tiny (trace w') = [None] /\
  warnings tiny (trace w') = ["Failed to initialise whisper context"] /\
  (initContext tiny None boot).1 = 0.
Proof. repeat split. Qed.
